(** * The documentation section injector ([scripts/add-examples-to-docs.py])

    A shallow embedding of the script and the properties its specification
    states about it.

    - Python [str] values are sequences of Unicode code points: [list N].
      Literals are written with [py "..."], which reads the two characters
      backslash-n as a line feed, so that a literal here is spelled like the
      literal in the script.
    - [in], [str.replace], [str.split] and [str.strip] are modelled in
      [PyStr] as left-to-right scans, the way CPython performs them.
    - The file system is a finite map from paths to files; [open], [read],
      [write] and [print] act on an explicit [world] and may raise. *)

From Stdlib Require Import String Ascii NArith List Lia.
From stdpp Require Import base option list gmap pretty.

Local Open Scope N_scope.
Local Open Scope list_scope.

(** ** Python strings *)

Abbreviation str := (list N) (only parsing).

(** A string literal of the script; [\n] is the only escape it uses. *)
Fixpoint py (s : string) : str :=
  match s with
  | EmptyString => []
  | String "\"%char (String "n"%char s') => 10 :: py s'
  | String c s' => N_of_ascii c :: py s'
  end.

(** Text without escapes (the digits of a formatted number). *)
Definition of_ascii (s : string) : str :=
  N_of_ascii <$> list_ascii_of_string s.

Module PyStr.

(** [s.startswith(prefix)] *)
Fixpoint startswith (prefix s : str) : bool :=
  match prefix, s with
  | [], _ => true
  | _ :: _, [] => false
  | a :: prefix', b :: s' => (a =? b) && startswith prefix' s'
  end.

(** [sub in s] *)
Fixpoint contains (sub s : str) : bool :=
  startswith sub s ||
  match s with
  | [] => false
  | _ :: s' => contains sub s'
  end.

(** [s.find(sub)]: the index of the leftmost occurrence; [None] is [-1]. *)
Fixpoint find (sub s : str) : option nat :=
  if startswith sub s then Some 0%nat
  else match s with
       | [] => None
       | _ :: s' => S <$> find sub s'
       end.

(** [s.replace(old, new)]: every occurrence of [old], found from left to
    right without overlap, becomes [new].  [skip] counts the characters of
    a matched occurrence still to be passed over.  ([old] is a non-empty
    literal at the call site; the empty pattern is not modelled.) *)
Fixpoint replace_from (old new : str) (skip : nat) (s : str) : str :=
  match s with
  | [] => []
  | c :: s' =>
      match skip with
      | S k => replace_from old new k s'
      | O =>
          if startswith old s
          then new ++ replace_from old new (length old - 1) s'
          else c :: replace_from old new 0 s'
      end
  end.

Definition replace (old new s : str) : str := replace_from old new 0 s.

(** [maxsplit] of [str.split]: [None] is the default [-1] (no limit). *)
Definition may_split (maxsplit : option nat) : bool :=
  match maxsplit with
  | Some O => false
  | _ => true
  end.

(** [s.split(sep, maxsplit)] for a non-empty [sep]: [cur] is the piece
    being collected, [skip] as in [replace_from]. *)
Fixpoint split_from (sep : str) (maxsplit : option nat) (skip : nat)
    (cur s : str) : list str :=
  match s with
  | [] => [cur]
  | c :: s' =>
      match skip with
      | S k => split_from sep maxsplit k cur s'
      | O =>
          if may_split maxsplit && startswith sep s
          then cur :: split_from sep (Nat.pred <$> maxsplit)
                        (length sep - 1) [] s'
          else split_from sep maxsplit 0 (cur ++ [c]) s'
      end
  end.

Definition split (sep : str) (maxsplit : option nat) (s : str) : list str :=
  split_from sep maxsplit 0 [] s.

(** [sep.join(pieces)] *)
Fixpoint join (sep : str) (pieces : list str) : str :=
  match pieces with
  | [] => []
  | [p] => p
  | p :: rest => p ++ sep ++ join sep rest
  end.

(** [c.isspace()] for one code point: the table of CPython's
    [_PyUnicode_IsWhitespace]. *)
Definition isspace (c : N) : bool :=
  ((9 <=? c) && (c <=? 13)) || ((28 <=? c) && (c <=? 32)) ||
  (c =? 133) || (c =? 160) || (c =? 5760) ||
  ((8192 <=? c) && (c <=? 8202)) ||
  (c =? 8232) || (c =? 8233) || (c =? 8239) || (c =? 8287) || (c =? 12288).

Fixpoint lstrip (s : str) : str :=
  match s with
  | [] => []
  | c :: s' => if isspace c then lstrip s' else s
  end.

Definition rstrip (s : str) : str := rev (lstrip (rev s)).

(** [s.strip()] *)
Definition strip (s : str) : str := rstrip (lstrip s).

End PyStr.


(** ** Exceptions *)

(** The exceptions of the model: a file that is missing or may not be
    opened, and the two a malformed value would raise at lines 189 and 193.
    Other failures of the operating system (a directory in place of the
    file, bytes that are not UTF-8, a full disk) are outside the model. *)
Inductive exn : Type :=
  | FileNotFoundError (filename : str)
  | PermissionError (filename : str)
  | ValueError
  | IndexError.

(** The outcome of an expression that may raise. *)
Inductive res (A : Type) : Type :=
  | Ok (a : A)
  | Raise (e : exn).
Arguments Ok {A} a.
Arguments Raise {A} e.

#[global] Instance res_ret : MRet res := λ A a, Ok a.
#[global] Instance res_bind : MBind res := λ A B k r,
  match r with
  | Ok a => k a
  | Raise e => Raise e
  end.

(** [l[-1]] *)
Definition getitem_last {A : Type} (l : list A) : res A :=
  match last l with
  | Some x => Ok x
  | None => Raise IndexError
  end.

(** [a, b = l] *)
Definition unpack2 {A : Type} (l : list A) : res (A * A) :=
  match l with
  | [a; b] => Ok (a, b)
  | _ => Raise ValueError
  end.

(** ** The world: files, standard output, and the log of writes *)

Record file : Type := File {
  content : str;
  readable : bool;
  writable : bool
}.

Record world : Type := World {
  files : gmap (list N) file;
  stdout : list str;            (* one entry per [print] call *)
  written : list (str * str)    (* one entry per [f.write] call *)
}.

(** A statement: it runs in a world, returns or raises, and leaves a world. *)
Definition M (A : Type) : Type := world → res A * world.

#[global] Instance M_ret : MRet M := λ A a w, (Ok a, w).
#[global] Instance M_bind : MBind M := λ A B k m w,
  match m w with
  | (Ok a, w') => k a w'
  | (Raise e, w') => (Raise e, w')
  end.

(** A pure expression that may raise, inside a statement. *)
Definition lift {A : Type} (r : res A) : M A := λ w, (r, w).

(** [print(line)] *)
Definition print (line : str) : M unit := λ w,
  (Ok (), World (files w) (stdout w ++ [line]) (written w)).

(** [with open(file_path, 'r', encoding='utf-8') as f: f.read()].
    [content] is the text as [read] returns it, decoded and with its line
    ends translated; a path is a key of the store as it is spelled. *)
Definition read_text (file_path : str) : M str := λ w,
  match files w !! file_path with
  | None => (Raise (FileNotFoundError file_path), w)
  | Some f =>
      if readable f then (Ok (content f), w)
      else (Raise (PermissionError file_path), w)
  end.

(** [with open(file_path, 'w', encoding='utf-8') as f: f.write(data)].
    The model writes in one step: a failure between the truncation of line
    207 and the end of line 208 is outside it. *)
Definition write_text (file_path data : str) : M unit := λ w,
  match files w !! file_path with
  | None =>
      (Ok (), World (<[file_path := File data true true]> (files w))
                    (stdout w) (written w ++ [(file_path, data)]))
  | Some f =>
      if writable f
      then (Ok (), World (<[file_path := File data (readable f) true]> (files w))
                         (stdout w) (written w ++ [(file_path, data)]))
      else (Raise (PermissionError file_path), w)
  end.

(** ** The script *)

(** One value of [DOCS_CONFIG]. *)
Record config : Type := Config {
  examples : list (str * str * str);
  tests : list str;
  test_filter : str
}.

Definition DOCS_CONFIG : list (str * config) := [
  (py "starlight/src/content/docs/simple-dto/type-casting.md",
   {| examples := [
        (py "Basic Casts",
         py "examples/simple-dto/type-casting/basic-casts.php",
         py "Common type casts");
        (py "All Casts",
         py "examples/simple-dto/type-casting/all-casts.php",
         py "Complete cast overview");
        (py "Enum Cast",
         py "examples/simple-dto/type-casting/enum-cast.php",
         py "Enum casting");
        (py "Collection Cast",
         py "examples/simple-dto/type-casting/collection-cast.php",
         py "Collection casting");
        (py "Timestamp Cast",
         py "examples/simple-dto/type-casting/timestamp-cast.php",
         py "Date/time casting");
        (py "Hashed Cast",
         py "examples/simple-dto/type-casting/hashed-cast.php",
         py "Password hashing");
        (py "Encrypted Cast",
         py "examples/simple-dto/type-casting/encrypted-cast.php",
         py "Data encryption");
        (py "Lazy Cast",
         py "examples/simple-dto/type-casting/lazy-cast.php",
         py "Lazy loading casts") ];
      tests := [
        py "tests/Unit/SimpleDTO/Casts/CastTest.php - Cast functionality tests";
        py "tests/Unit/SimpleDTO/Casts/EnumCastTest.php - Enum cast tests";
        py "tests/Unit/SimpleDTO/Casts/CollectionCastTest.php - Collection cast tests" ];
      test_filter := py "Cast" |});
  (py "starlight/src/content/docs/simple-dto/validation.md",
   {| examples := [
        (py "Basic Validation",
         py "examples/simple-dto/validation/basic-validation.php",
         py "Simple validation rules");
        (py "Advanced Validation",
         py "examples/simple-dto/validation/advanced-validation.php",
         py "Complex validation scenarios");
        (py "Request Validation Core",
         py "examples/simple-dto/validation/request-validation-core.php",
         py "Core request validation");
        (py "Laravel Validation",
         py "examples/simple-dto/validation/request-validation-laravel.php",
         py "Laravel integration");
        (py "Symfony Validation",
         py "examples/simple-dto/validation/request-validation-symfony.php",
         py "Symfony integration");
        (py "Validation Modes",
         py "examples/simple-dto/validation/validation-modes.php",
         py "Different validation modes");
        (py "Nested Validation",
         py "examples/simple-dto/validation/nested-validation.php",
         py "Validating nested DTOs") ];
      tests := [
        py "tests/Unit/ValidationModesTest.php - Validation mode tests";
        py "tests/Unit/SimpleDTO/ValidationTest.php - Core validation tests";
        py "tests/Unit/SimpleDTO/NestedValidationTest.php - Nested validation tests" ];
      test_filter := py "Validation" |});
  (py "starlight/src/content/docs/simple-dto/conditional-properties.md",
   {| examples := [
        (py "Basic Conditional",
         py "examples/simple-dto/conditional-properties/basic-conditional.php",
         py "Simple conditional properties");
        (py "WhenCallback with Parameters",
         py "examples/simple-dto/conditional-properties/whencallback-with-parameters.php",
         py "Callbacks with parameters");
        (py "With Method",
         py "examples/simple-dto/conditional-properties/with-method.php",
         py "Using with() method");
        (py "Context-Based Conditions",
         py "examples/simple-dto/conditional-properties/context-based-conditions.php",
         py "Context-aware conditions");
        (py "Custom Conditions",
         py "examples/simple-dto/conditional-properties/custom-conditions.php",
         py "Creating custom conditions");
        (py "Laravel Attributes",
         py "examples/simple-dto/conditional-properties/laravel-conditional-attributes.php",
         py "Laravel-specific attributes");
        (py "Symfony Attributes",
         py "examples/simple-dto/conditional-properties/symfony-conditional-attributes.php",
         py "Symfony-specific attributes") ];
      tests := [
        py "tests/Unit/SimpleDTO/ConditionalPropertiesTest.php - Conditional property tests";
        py "tests/Unit/SimpleDTO/ContextTest.php - Context tests" ];
      test_filter := py "Conditional" |});
  (py "starlight/src/content/docs/simple-dto/lazy-properties.md",
   {| examples := [
        (py "Basic Lazy",
         py "examples/simple-dto/lazy-properties/basic-lazy.php",
         py "Simple lazy properties");
        (py "Lazy Union Types",
         py "examples/simple-dto/lazy-properties/lazy-union-types.php",
         py "Lazy with union types");
        (py "Optional Lazy Combinations",
         py "examples/simple-dto/lazy-properties/optional-lazy-combinations.php",
         py "Combining optional and lazy") ];
      tests := [
        py "tests/Unit/SimpleDTO/LazyPropertiesTest.php - Lazy property tests" ];
      test_filter := py "Lazy" |});
  (py "starlight/src/content/docs/simple-dto/computed-properties.md",
   {| examples := [
        (py "Basic Computed",
         py "examples/simple-dto/computed-properties/basic-computed.php",
         py "Simple computed properties") ];
      tests := [
        py "tests/Unit/SimpleDTO/ComputedPropertiesTest.php - Computed property tests" ];
      test_filter := py "Computed" |});
  (py "starlight/src/content/docs/simple-dto/collections.md",
   {| examples := [
        (py "Data Collection",
         py "examples/simple-dto/collections/data-collection.php",
         py "Working with collections");
        (py "DTO Sorting",
         py "examples/simple-dto/collections/dto-sorting.php",
         py "Sorting DTOs in collections") ];
      tests := [
        py "tests/Unit/SimpleDTO/CollectionTest.php - Collection tests" ];
      test_filter := py "Collection" |});
  (py "starlight/src/content/docs/simple-dto/security-visibility.md",
   {| examples := [
        (py "Visibility Hidden",
         py "examples/simple-dto/security-visibility/visibility-hidden.php",
         py "Hiding properties");
        (py "Visibility Context",
         py "examples/simple-dto/security-visibility/visibility-context.php",
         py "Context-based visibility");
        (py "Visibility Explained",
         py "examples/simple-dto/security-visibility/visibility-explained.php",
         py "Detailed explanation");
        (py "Real World Example",
         py "examples/simple-dto/security-visibility/visibility-real-world.php",
         py "Practical use case");
        (py "Static Provider",
         py "examples/simple-dto/security-visibility/visibility-static-provider.php",
         py "Static visibility provider") ];
      tests := [
        py "tests/Unit/SimpleDTO/VisibilityTest.php - Visibility tests" ];
      test_filter := py "Visibility" |});
  (py "starlight/src/content/docs/simple-dto/typescript-generation.md",
   {| examples := [
        (py "Basic Generation",
         py "examples/simple-dto/typescript-generation/basic-generation.php",
         py "Generate TypeScript types");
        (py "Generator Options",
         py "examples/simple-dto/typescript-generation/generator-options.php",
         py "Customizing generation") ];
      tests := [
        py "tests/Unit/SimpleDTO/TypeScriptGeneratorTest.php - TypeScript generation tests" ];
      test_filter := py "TypeScript" |});
  (py "starlight/src/content/docs/simple-dto/serialization.md",
   {| examples := [
        (py "Serializers",
         py "examples/simple-dto/serialization/serializers.php",
         py "Serialization examples");
        (py "Transformers",
         py "examples/simple-dto/serialization/transformers.php",
         py "Data transformation");
        (py "Normalizers",
         py "examples/simple-dto/serialization/normalizers.php",
         py "Data normalization");
        (py "Serializer Options",
         py "examples/simple-dto/serialization/serializer-options.php",
         py "Customizing serialization") ];
      tests := [
        py "tests/Unit/SimpleDTO/SerializationTest.php - Serialization tests" ];
      test_filter := py "Serialization" |});
  (py "starlight/src/content/docs/simple-dto/property-mapping.md",
   {| examples := [
        (py "Basic Mapping",
         py "examples/simple-dto/property-mapping/basic-mapping.php",
         py "Property name mapping") ];
      tests := [
        py "tests/Unit/SimpleDTO/PropertyMappingTest.php - Property mapping tests" ];
      test_filter := py "PropertyMapping" |});
  (py "starlight/src/content/docs/framework-integration/symfony.md",
   {| examples := [
        (py "Symfony Doctrine",
         py "examples/framework-integration/symfony/symfony-doctrine.php",
         py "Symfony with Doctrine") ];
      tests := [
        py "tests/Unit/Frameworks/Symfony/SymfonyIntegrationTest.php - Symfony integration tests";
        py "tests-e2e/Symfony/ - End-to-end Symfony tests" ];
      test_filter := py "Symfony" |});
  (py "starlight/src/content/docs/framework-integration/doctrine.md",
   {| examples := [
        (py "Doctrine Integration",
         py "examples/framework-integration/doctrine/doctrine-integration.php",
         py "Working with Doctrine entities") ];
      tests := [
        py "tests/Unit/DataAccessor/DataAccessorDoctrineTest.php - Doctrine tests";
        py "tests/Unit/DataMutator/DataMutatorDoctrineTest.php - Doctrine mutator tests" ];
      test_filter := py "Doctrine" |}) ].

Definition CODE_EXAMPLES : str := py "## Code Examples".
Definition SEE_ALSO : str := py "## See Also".
Definition BLOB_URL : str :=
  py "https://github.com/event4u-app/data-helpers/blob/main/".

(** The line one entry of [config["examples"]] adds (line 181). *)
Definition example_bullet (example : str * str * str) : str :=
  let '(title, path, desc) := example in
  py "- [**" ++ title ++ py "**](" ++ BLOB_URL ++ path ++ py ") - "
    ++ desc ++ py "\n".

(** [examples_section] when line 183 has run. *)
Definition examples_section (config : config) : str :=
  let examples_section :=
    py "\n## Code Examples\n\nThe following working examples demonstrate this feature:\n\n" in
  let examples_section :=
    fold_left (λ examples_section example,
                 examples_section ++ example_bullet example)
              (examples config) examples_section in
  examples_section
    ++ py "\nAll examples are fully tested and can be run directly.\n".

(** The line one entry of [config["tests"]] adds (lines 188-199). *)
Definition test_bullet (test : str) : res str :=
  if PyStr.contains (py " - ") test then
    '(test_path, test_desc) ← unpack2 (PyStr.split (py " - ") (Some 1%nat) test);
    let test_path := PyStr.strip test_path in
    let test_desc := PyStr.strip test_desc in
    test_filename ← getitem_last (PyStr.split (py "/") None test_path);
    mret (py "- [" ++ test_filename ++ py "](" ++ BLOB_URL ++ test_path
            ++ py ") - " ++ test_desc ++ py "\n")
  else
    let test_path := PyStr.strip test in
    test_filename ← getitem_last (PyStr.split (py "/") None test_path);
    mret (py "- [" ++ test_filename ++ py "](" ++ BLOB_URL ++ test_path
            ++ py ")\n").

(** The loop of lines 186-199: [tests_section += ...] for each entry. *)
Fixpoint tests_loop (entries : list str) (tests_section : str) : res str :=
  match entries with
  | [] => mret tests_section
  | test :: rest =>
      line ← test_bullet test;
      tests_loop rest (tests_section ++ line)
  end.

(** [tests_section] when line 201 has run. *)
Definition tests_section (config : config) : res str :=
  tests_section ← tests_loop (tests config)
    (py "\n## Related Tests\n\nThe functionality is thoroughly tested. Key test files:\n\n");
  mret (tests_section
          ++ py "\nRun the tests:\n\n```bash\n# Run tests\ntask test:unit -- --filter="
          ++ test_filter config ++ py "\n```\n").

(** [new_content] of line 204. *)
Definition new_content (content : str) (config : config) : res str :=
  tests_section ← tests_section config;
  mret (PyStr.replace SEE_ALSO
          (examples_section config ++ tests_section ++ py "\n## See Also")
          content).

Definition msg_skipping (file_path : str) : str :=
  [0x201a; 0xe8; 0x2260; 0xd4; 0x220f; 0xe8]
    ++ py "  Skipping " ++ file_path ++ py " (already has examples section)".

Definition msg_no_see_also (file_path : str) : str :=
  [0x201a; 0xf6; 0x2020; 0xd4; 0x220f; 0xe8]
    ++ py "  No 'See Also' section found in " ++ file_path.

Definition msg_updated (file_path : str) : str :=
  [0x201a; 0xfa; 0xd6] ++ py "  Updated " ++ file_path.

Definition msg_banner : str :=
  [0xf8ff; 0xfc; 0xec; 0xf9]
    ++ py " Adding example and test sections to documentation pages...\n".

Definition msg_summary (updated_count : nat) : str :=
  py "\n" ++ [0x201a; 0xfa; 0xd6] ++ py "  Updated "
    ++ of_ascii (pretty updated_count)
    ++ py " documentation pages successfully!".

Definition add_sections_to_file (file_path : str) (config : config) : M bool :=
  content ← read_text file_path;
  if PyStr.contains CODE_EXAMPLES content then
    print (msg_skipping file_path);;
    mret false
  else if negb (PyStr.contains SEE_ALSO content) then
    print (msg_no_see_also file_path);;
    mret false
  else
    new_content ← lift (new_content content config);
    write_text file_path new_content;;
    print (msg_updated file_path);;
    mret true.

(** The loop of lines 218-220 over [items], starting from [updated_count]. *)
Fixpoint main_loop (items : list (str * config)) (updated_count : nat) : M nat :=
  match items with
  | [] => mret updated_count
  | (file_path, config) :: rest =>
      updated ← add_sections_to_file file_path config;
      main_loop rest (if (updated : bool) then (updated_count + 1)%nat
                      else updated_count)
  end.

(** The body of [main], for the table it iterates over. *)
Definition main_on (docs_config : list (str * config)) : M unit :=
  print msg_banner;;
  updated_count ← main_loop docs_config 0%nat;
  print (msg_summary updated_count).


(** ** Sample inputs *)

(** The configuration of the specification's example scenario. *)
Definition sample_config : config :=
  {| examples := [(py "Basic", py "ex/basic.php", py "desc")];
     tests := [py "tests/T.php - unit test"];
     test_filter := py "Foo" |}.

(** A world whose only file is [page.md], readable and writable, holding
    [text]; nothing has been printed or written. *)
Definition page (text : str) : world :=
  {| files := {[ py "page.md" := File text true true ]};
     stdout := [];
     written := [] |}.

(** A configuration that lists no example and no test. *)
Definition empty_config : config :=
  {| examples := []; tests := []; test_filter := py "Foo" |}.

(** A page with two "## See Also" headings. *)
Definition two_anchors : str :=
  py "# T\n" ++ SEE_ALSO ++ py "\nA\n" ++ SEE_ALSO ++ py "\nB\n".


(** ** What the specification speaks of *)

(** [pre] and [post] are the text around the leftmost occurrence of [sub]
    in [s]. *)
Definition first_occurrence (sub s pre post : str) : Prop :=
  s = pre ++ sub ++ post ∧ PyStr.find sub s = Some (length pre).

(** The final path segment: everything after the last ["/"], the whole path
    when it has none. *)
Fixpoint lastPathSegment (path : str) : str :=
  match path with
  | [] => []
  | c :: rest =>
      if existsb (N.eqb 47) rest then lastPathSegment rest
      else if c =? 47 then rest
      else path
  end.

(** ** Notions for the batch *)

(** [line] is one of the three status lines of [add_sections_to_file] for
    [file_path] (lines 169, 174 and 210). *)
Definition status_line (file_path line : str) : Prop :=
  line = msg_skipping file_path ∨ line = msg_no_see_also file_path
  ∨ line = msg_updated file_path.

(** The file at [file_path] can be read and passes one of the two guards of
    lines 168 and 173: a run on it skips. *)
Definition settled (fs : gmap (list N) file) (file_path : str) : Prop :=
  ∃ f, fs !! file_path = Some f ∧ readable f = true ∧
       (PyStr.contains CODE_EXAMPLES (content f) = true
        ∨ PyStr.contains SEE_ALSO (content f) = false).

(** From [fs] to [fs'] no file has appeared or gone, and each file may be
    read and written as before. *)
Definition keeps_access (fs fs' : gmap (list N) file) : Prop :=
  ∀ p, match fs !! p with
       | None => fs' !! p = None
       | Some f =>
           ∃ f', fs' !! p = Some f' ∧
                 readable f' = readable f ∧ writable f' = writable f
       end.

(** A world that has every configured page, each with a "## See Also"
    heading. *)
Definition all_pages : world :=
  {| files :=
       list_to_map
         ((λ item : list N * config,
             (item.1, File (py "# Page\n\n## See Also\n- link\n") true true))
            <$> DOCS_CONFIG);
     stdout := [];
     written := [] |}.

(** * Facts about the string operations *)

Module PyStrFacts.
Import PyStr.

Lemma startswith_spec (prefix s : str) :
  startswith prefix s = true ↔ ∃ rest, s = prefix ++ rest.
Proof.
  revert s. induction prefix as [|a prefix IH]; intros s; simpl.
  - split; eauto.
  - destruct s as [|b s].
    + split; [done | intros [rest H]; discriminate H].
    + rewrite andb_true_iff, N.eqb_eq, IH. split.
      * intros [-> [rest ->]]. by exists rest.
      * intros [rest H]. injection H as -> ->. eauto.
Qed.

Lemma startswith_app (prefix rest : str) : startswith prefix (prefix ++ rest) = true.
Proof. apply startswith_spec. eauto. Qed.

Lemma startswith_length (prefix s : str) :
  startswith prefix s = true → (length prefix ≤ length s)%nat.
Proof.
  intros [rest ->]%startswith_spec. rewrite length_app. lia.
Qed.

Lemma contains_spec (sub s : str) :
  contains sub s = true ↔ ∃ pre post, s = pre ++ sub ++ post.
Proof.
  induction s as [|c s IH]; simpl.
  - rewrite orb_false_r, startswith_spec. split.
    + intros [rest H]. by exists [], rest.
    + intros (pre & post & H). destruct pre; [by exists post |discriminate H].
  - rewrite orb_true_iff, startswith_spec, IH. split.
    + intros [[rest H] | (pre & post & ->)].
      * by exists [], rest.
      * by exists (c :: pre), post.
    + intros (pre & post & H). destruct pre as [|c' pre].
      * left. by exists post.
      * right. injection H as -> ->. by exists pre, post.
Qed.

Lemma contains_app_r (sub s post : str) :
  contains sub s = true → contains sub (s ++ post) = true.
Proof.
  rewrite !contains_spec. intros (pre & post' & ->).
  exists pre, (post' ++ post). by rewrite <- !app_assoc.
Qed.

Lemma contains_app_l (sub pre s : str) :
  contains sub s = true → contains sub (pre ++ s) = true.
Proof.
  rewrite !contains_spec. intros (pre' & post & ->).
  exists (pre ++ pre'), post. by rewrite <- !app_assoc.
Qed.

Lemma contains_nil (sub : str) : sub ≠ [] → contains sub [] = false.
Proof. by destruct sub. Qed.

(** *** [find] *)

Lemma find_cons (sub : str) (c : N) (s : str) :
  find sub (c :: s)
  = if startswith sub (c :: s) then Some 0%nat else S <$> find sub s.
Proof. done. Qed.

(** [find] returns the position of an occurrence, and no occurrence starts
    further left. *)
Lemma find_leftmost (sub s : str) (n : nat) :
  find sub s = Some n →
  (∃ pre post, s = pre ++ sub ++ post ∧ length pre = n) ∧
  ∀ pre' post', s = pre' ++ sub ++ post' → (n ≤ length pre')%nat.
Proof.
  revert n. induction s as [|c s IH]; intros n.
  - cbn. destruct (startswith sub []) eqn:Hst; [|done].
    intros [= <-]. apply startswith_spec in Hst as [rest Hs]. split.
    + by exists [], rest.
    + intros; lia.
  - rewrite find_cons. destruct (startswith sub (c :: s)) eqn:Hst.
    + intros [= <-]. apply startswith_spec in Hst as [rest Hs]. split.
      * by exists [], rest.
      * intros; lia.
    + destruct (find sub s) as [m|]; [|done]. intros [= <-].
      destruct (IH m eq_refl) as [(pre & post & -> & <-) Hleft]. split.
      * by exists (c :: pre), post.
      * intros [|c' pre'] post' Heq.
        -- cbn [app] in Heq. by rewrite Heq, startswith_app in Hst.
        -- injection Heq as -> Heq. cbn [length].
           specialize (Hleft _ _ Heq). lia.
Qed.

(** *** [replace] *)

Lemma replace_from_skip (old new l s : str) :
  replace_from old new (length l) (l ++ s) = replace_from old new 0 s.
Proof. induction l; simpl; [by destruct s | done]. Qed.

Lemma replace_match (old new rest : str) :
  old ≠ [] → replace old new (old ++ rest) = new ++ replace old new rest.
Proof.
  intros Hne. unfold replace. destruct old as [|c old]; [done|].
  assert (startswith (c :: old) (c :: old ++ rest) = true) as Hst
    by apply (startswith_app (c :: old) rest).
  cbn [app replace_from]. rewrite Hst.
  cbn [length]. rewrite Nat.sub_1_r. cbn [Nat.pred].
  by rewrite replace_from_skip.
Qed.

Lemma replace_no_match (old new : str) (c : N) (s : str) :
  startswith old (c :: s) = false →
  replace old new (c :: s) = c :: replace old new s.
Proof. intros H. unfold replace. cbn [replace_from]. by rewrite H. Qed.

(** Wherever [old] occurs, [new] is in the result. *)
Lemma replace_contains_new (old new sub s : str) :
  old ≠ [] → contains old s = true → contains sub new = true →
  contains sub (replace old new s) = true.
Proof.
  intros Hne Hs Hnew. induction s as [|c s IH].
  - by rewrite contains_nil in Hs.
  - destruct (startswith old (c :: s)) eqn:Hst.
    + apply startswith_spec in Hst as [rest ->].
      rewrite replace_match by done. by apply contains_app_r.
    + rewrite replace_no_match by done.
      cbn [contains] in Hs. rewrite Hst in Hs. cbn [orb] in Hs.
      apply (contains_app_l sub [c]). auto.
Qed.

(** *** [split] and [join] *)

Lemma split_from_nonempty (sep : str) (maxsplit : option nat) (skip : nat)
    (cur s : str) :
  split_from sep maxsplit skip cur s ≠ [].
Proof.
  revert maxsplit skip cur. induction s as [|c s IH]; intros m skip cur.
  - done.
  - cbn [split_from]. destruct skip; [|apply IH].
    destruct (may_split m && startswith sep (c :: s)); [done | apply IH].
Qed.

Lemma join_cons (sep p : str) (rest : list str) :
  rest ≠ [] → join sep (p :: rest) = p ++ sep ++ join sep rest.
Proof. by destruct rest. Qed.

(** Replacing is splitting at [old] and joining with [new]. *)
Lemma join_split_from (old new : str) (s : str) (skip : nat) (cur : str) :
  join new (split_from old None skip cur s)
  = cur ++ replace_from old new skip s.
Proof.
  revert skip cur. induction s as [|c s IH]; intros skip cur.
  - cbn. by rewrite app_nil_r.
  - cbn [split_from replace_from]. destruct skip as [|k]; [|apply IH].
    cbn [may_split andb]. destruct (startswith old (c :: s)).
    + rewrite join_cons by apply split_from_nonempty.
      cbn [fmap option_fmap option_map]. by rewrite IH.
    + rewrite IH. by rewrite <- app_assoc.
Qed.

Lemma replace_from_same (old : str) (s : str) (skip : nat) :
  old ≠ [] → replace_from old old skip s = drop skip s.
Proof.
  intros Hne. revert skip. induction s as [|c s IH]; intros skip.
  - by rewrite drop_nil.
  - cbn [replace_from]. destruct skip as [|k]; [|apply IH].
    destruct (startswith old (c :: s)) eqn:Hst.
    + apply startswith_spec in Hst as [rest Hs].
      destruct old as [|a old]; [done|]. injection Hs as -> ->.
      rewrite IH. cbn [length]. rewrite Nat.sub_1_r. cbn [Nat.pred].
      by rewrite drop_app_length.
    + by rewrite IH.
Qed.

Lemma join_split (sep s : str) :
  sep ≠ [] → join sep (split sep None s) = s.
Proof.
  intros Hne. unfold split. rewrite join_split_from.
  by rewrite replace_from_same.
Qed.

Lemma replace_join_split (old new s : str) :
  replace old new s = join new (split old None s).
Proof. unfold split. by rewrite join_split_from. Qed.

(** No occurrence of [old] that starts in [cur] means none inside it. *)
Lemma no_start_no_occurrence (old cur rest : str) :
  old ≠ [] →
  (∀ k, (k < length cur)%nat → startswith old (drop k (cur ++ rest)) = false) →
  contains old cur = false.
Proof.
  intros Hne Hno. destruct (contains old cur) eqn:Hc; [|done].
  apply contains_spec in Hc as (pre & post & ->).
  specialize (Hno (length pre)). rewrite <- !app_assoc in Hno.
  rewrite drop_app_length, startswith_app in Hno.
  assert (length pre < length (pre ++ old ++ post))%nat; [|by auto].
  rewrite !length_app. destruct old; [done | cbn; lia].
Qed.

Lemma split_from_pieces (old : str) (s : str) (skip : nat) (cur : str) :
  old ≠ [] →
  (∀ k, (k < length cur)%nat →
        startswith old (drop k (cur ++ drop skip s)) = false) →
  Forall (λ piece, contains old piece = false) (split_from old None skip cur s).
Proof.
  intros Hne. revert skip cur. induction s as [|c s IH]; intros skip cur Hno.
  - cbn. constructor; [|constructor].
    eapply no_start_no_occurrence; [done | apply Hno].
  - cbn [split_from]. destruct skip as [|k]; [|by apply IH].
    cbn [may_split andb]. destruct (startswith old (c :: s)) eqn:Hst.
    + constructor.
      * eapply no_start_no_occurrence; [done | apply Hno].
      * apply IH. cbn. intros; lia.
    + apply IH. intros k Hk. rewrite <- app_assoc. cbn [drop app].
      rewrite length_app in Hk. cbn in Hk.
      destruct (decide (k = length cur)) as [->|].
      * by rewrite drop_app_length.
      * apply (Hno k). lia.
Qed.

(** The pieces of a split hold no occurrence of the separator. *)
Lemma split_pieces (sep s : str) :
  sep ≠ [] → Forall (λ piece, contains sep piece = false) (split sep None s).
Proof. intros Hne. apply split_from_pieces; [done | cbn; intros; lia]. Qed.

Lemma split_from_exhausted (sep : str) (s : str) (skip : nat) (cur : str) :
  split_from sep (Some 0%nat) skip cur s = [cur ++ drop skip s].
Proof.
  revert skip cur. induction s as [|c s IH]; intros skip cur.
  - by rewrite drop_nil, app_nil_r.
  - cbn [split_from]. destruct skip as [|k]; [|apply IH].
    cbn [may_split andb]. rewrite IH. by rewrite <- app_assoc.
Qed.

(** [s.split(sep, 1)] on a string that has [sep] in it: two pieces, around
    the leftmost occurrence. *)
Lemma split_from_once (sep : str) (s cur : str) :
  sep ≠ [] → contains sep s = true →
  ∃ pre post, first_occurrence sep s pre post ∧
              split_from sep (Some 1%nat) 0 cur s = [cur ++ pre; post].
Proof.
  intros Hne. revert cur. induction s as [|c s IH]; intros cur Hc.
  - by rewrite contains_nil in Hc.
  - cbn [split_from may_split andb].
    destruct (startswith sep (c :: s)) eqn:Hst.
    + pose proof Hst as [rest Hs]%startswith_spec.
      exists [], rest. split.
      * split; [done | by rewrite find_cons, Hst].
      * rewrite app_nil_r. cbn [fmap option_fmap option_map Nat.pred].
        rewrite split_from_exhausted. destruct sep as [|a sep]; [done|].
        injection Hs as -> ->. cbn [length]. rewrite Nat.sub_1_r.
        cbn [Nat.pred app]. by rewrite drop_app_length.
    + cbn [contains] in Hc. rewrite Hst in Hc. cbn [orb] in Hc.
      destruct (IH (cur ++ [c]) Hc) as (pre & post & [-> Hfind] & ->).
      exists (c :: pre), post. split.
      * split; [done|]. by rewrite find_cons, Hst, Hfind.
      * by rewrite <- app_assoc.
Qed.

Lemma split_once (sep s : str) :
  sep ≠ [] → contains sep s = true →
  ∃ pre post, first_occurrence sep s pre post ∧
              split sep (Some 1%nat) s = [pre; post].
Proof. intros Hne Hc. by apply (split_from_once sep s []). Qed.

Lemma first_occurrence_unique (sub s pre post pre' post' : str) :
  first_occurrence sub s pre post → first_occurrence sub s pre' post' →
  pre = pre' ∧ post = post'.
Proof.
  intros [Hs Hfind] [Hs' Hfind'].
  rewrite Hfind in Hfind'. injection Hfind' as Hlen.
  rewrite Hs in Hs'. apply app_inj_1 in Hs' as [-> Hrest]; [|done].
  apply app_inv_head in Hrest. done.
Qed.

(** *** The last piece of a path *)

Lemma last_split_from_slash (s cur : str) :
  last (split_from [47] None 0 cur s)
  = Some (if existsb (N.eqb 47) s then lastPathSegment s else cur ++ s).
Proof.
  revert cur. induction s as [|c s IH]; intros cur.
  - cbn. by rewrite app_nil_r.
  - cbn [split_from may_split andb length Nat.sub startswith existsb
         lastPathSegment].
    rewrite andb_true_r, (N.eqb_sym 47 c).
    destruct (c =? 47) eqn:Hc; cbn [orb fmap option_fmap option_map].
    + rewrite last_cons, IH. done.
    + rewrite IH, <- app_assoc. by destruct (existsb (N.eqb 47) s).
Qed.

Lemma getitem_last_split_slash (path : str) :
  getitem_last (split (py "/") None path) = Ok (lastPathSegment path).
Proof.
  unfold getitem_last, split. change (py "/") with [47].
  rewrite last_split_from_slash. destruct path as [|c path]; [done|].
  cbn [existsb lastPathSegment].
  destruct (existsb (N.eqb 47) path) eqn:He.
  - destruct (47 =? c); done.
  - rewrite orb_false_r, (N.eqb_sym 47 c). destruct (c =? 47) eqn:Hc; [done|].
    done.
Qed.

(** [lastPathSegment] is what its name says. *)
Lemma lastPathSegment_spec (path : str) :
  (47 ∉ lastPathSegment path) ∧
  (path = lastPathSegment path ∨
   ∃ dir, path = dir ++ py "/" ++ lastPathSegment path).
Proof.
  change (py "/") with [47].
  induction path as [|c path [IHno IHeq]].
  - split; [apply not_elem_of_nil | by left].
  - cbn [lastPathSegment]. destruct (existsb (N.eqb 47) path) eqn:He.
    + split; [done|]. right. destruct IHeq as [Heq | [dir Heq]].
      * exfalso. apply existsb_exists in He as (x & Hin & <-%N.eqb_eq).
        rewrite Heq in Hin. apply IHno. by apply list_elem_of_In.
      * exists (c :: dir). exact (f_equal (cons c) Heq).
    + assert (47 ∉ path) as Hpath.
      { intros Hin%list_elem_of_In. 
        assert (existsb (N.eqb 47) path = true); [|congruence].
        apply existsb_exists. exists 47. by rewrite N.eqb_refl. }
      destruct (c =? 47) eqn:Hc.
      * apply N.eqb_eq in Hc as ->. split; [done|]. right. by exists [].
      * apply N.eqb_neq in Hc. split; [|by left].
        intros [Heq|Hin]%elem_of_cons; [by apply Hc | done].
Qed.

Lemma lastPathSegment_trailing_slash (dir : str) :
  lastPathSegment (dir ++ py "/") = [].
Proof.
  change (py "/") with [47]. induction dir as [|c dir IH]; [done|].
  cbn [app lastPathSegment]. rewrite IH.
  assert (existsb (N.eqb 47) (dir ++ [47]) = true) as ->; [|done].
  apply existsb_exists. exists 47. rewrite in_app_iff. cbn. auto.
Qed.

End PyStrFacts.

(** * Facts about the script *)

Section ScriptFacts.
Import PyStr PyStrFacts.

Lemma fold_left_append {A : Type} (f : A → str) (l : list A) (init : str) :
  fold_left (λ acc x, acc ++ f x) l init = init ++ concat (map f l).
Proof.
  revert init. induction l as [|x l IH]; intros init; cbn.
  - by rewrite app_nil_r.
  - by rewrite IH, <- app_assoc.
Qed.

Lemma examples_section_bullets (config : config) :
  examples_section config
  = py "\n## Code Examples\n\nThe following working examples demonstrate this feature:\n\n"
    ++ concat (map example_bullet (examples config))
    ++ py "\nAll examples are fully tested and can be run directly.\n".
Proof.
  unfold examples_section. by rewrite fold_left_append, <- app_assoc.
Qed.

Lemma sep_nonempty : py " - " ≠ [].
Proof. done. Qed.

Lemma test_bullet_described (test : str) :
  contains (py " - ") test = true →
  ∃ path desc,
    first_occurrence (py " - ") test path desc ∧
    test_bullet test
    = Ok (py "- [" ++ lastPathSegment (strip path) ++ py "](" ++ BLOB_URL
            ++ strip path ++ py ") - " ++ strip desc ++ py "\n").
Proof.
  intros Hc. destruct (split_once _ _ sep_nonempty Hc) as (path & desc & Hfirst & Hs).
  exists path, desc. split; [done|].
  unfold test_bullet. rewrite Hc, Hs. cbn [unpack2 mbind res_bind].
  by rewrite getitem_last_split_slash.
Qed.

Lemma test_bullet_bare (test : str) :
  contains (py " - ") test = false →
  test_bullet test
  = Ok (py "- [" ++ lastPathSegment (strip test) ++ py "](" ++ BLOB_URL
          ++ strip test ++ py ")\n").
Proof.
  intros Hc. unfold test_bullet. rewrite Hc.
  by rewrite getitem_last_split_slash.
Qed.

(** Rendering an entry never raises. *)
Lemma test_bullet_total (test : str) : ∃ line, test_bullet test = Ok line.
Proof.
  destruct (contains (py " - ") test) eqn:Hc.
  - destruct (test_bullet_described test Hc) as (? & ? & _ & ->). eauto.
  - rewrite (test_bullet_bare test Hc). eauto.
Qed.

Lemma tests_loop_bullets (entries : list str) (init : str) :
  ∃ bullets,
    Forall2 (λ test bullet, test_bullet test = Ok bullet) entries bullets ∧
    tests_loop entries init = Ok (init ++ concat bullets).
Proof.
  revert init. induction entries as [|test entries IH]; intros init.
  - exists []. split; [constructor | cbn; by rewrite app_nil_r].
  - destruct (test_bullet_total test) as [line Hline].
    destruct (IH (init ++ line)) as (bullets & Hall & Hloop).
    exists (line :: bullets). split; [by constructor|].
    cbn [tests_loop]. rewrite Hline. cbn [mbind res_bind].
    rewrite Hloop. cbn [concat]. by rewrite <- app_assoc.
Qed.

Lemma tests_section_bullets (config : config) :
  ∃ bullets,
    Forall2 (λ test bullet, test_bullet test = Ok bullet) (tests config) bullets ∧
    tests_section config
    = Ok (py "\n## Related Tests\n\nThe functionality is thoroughly tested. Key test files:\n\n"
            ++ concat bullets
            ++ py "\nRun the tests:\n\n```bash\n# Run tests\ntask test:unit -- --filter="
            ++ test_filter config ++ py "\n```\n").
Proof.
  unfold tests_section.
  destruct (tests_loop_bullets (tests config)
    (py "\n## Related Tests\n\nThe functionality is thoroughly tested. Key test files:\n\n"))
    as (bullets & Hall & ->).
  exists bullets. split; [done|]. cbn [mbind res_bind mret res_ret].
  by rewrite <- !app_assoc.
Qed.

Lemma tests_section_total (config : config) :
  ∃ tests_block, tests_section config = Ok tests_block.
Proof. destruct (tests_section_bullets config) as (? & _ & ->). eauto. Qed.

Lemma new_content_replace (content : str) (config : config) (tests_block : str) :
  tests_section config = Ok tests_block →
  new_content content config
  = Ok (replace SEE_ALSO
          (examples_section config ++ tests_block ++ py "\n" ++ SEE_ALSO)
          content).
Proof. intros H. unfold new_content. by rewrite H. Qed.

Lemma examples_section_marker (config : config) :
  contains CODE_EXAMPLES (examples_section config) = true.
Proof.
  rewrite examples_section_bullets. apply contains_spec.
  exists [10], (py "\n\nThe following working examples demonstrate this feature:\n\n"
    ++ concat (map example_bullet (examples config))
    ++ py "\nAll examples are fully tested and can be run directly.\n").
  done.
Qed.

(** Once the anchor is there, the new text carries the marker. *)
Lemma new_content_marker (content : str) (config : config) (text : str) :
  contains SEE_ALSO content = true →
  new_content content config = Ok text →
  contains CODE_EXAMPLES text = true.
Proof.
  intros Hanchor Hnew.
  destruct (tests_section_total config) as [tests_block Hts].
  rewrite (new_content_replace _ _ _ Hts) in Hnew. injection Hnew as <-.
  apply replace_contains_new; [done | done |].
  apply contains_app_r, examples_section_marker.
Qed.

(** *** One run of [add_sections_to_file], case by case *)

Lemma add_sections_to_file_cases (file_path : str) (config : config) (w : world) :
  add_sections_to_file file_path config w =
  match files w !! file_path with
  | None => (Raise (FileNotFoundError file_path), w)
  | Some f =>
      if negb (readable f) then (Raise (PermissionError file_path), w)
      else if contains CODE_EXAMPLES (content f) then
        (Ok false,
         World (files w) (stdout w ++ [msg_skipping file_path]) (written w))
      else if negb (contains SEE_ALSO (content f)) then
        (Ok false,
         World (files w) (stdout w ++ [msg_no_see_also file_path]) (written w))
      else
        match new_content (content f) config with
        | Raise e => (Raise e, w)
        | Ok text =>
            if negb (writable f) then (Raise (PermissionError file_path), w)
            else
              (Ok true,
               World (<[file_path := File text true true]> (files w))
                     (stdout w ++ [msg_updated file_path])
                     (written w ++ [(file_path, text)]))
        end
  end.
Proof.
  unfold add_sections_to_file, mbind, M_bind, read_text.
  destruct (files w !! file_path) as [f|] eqn:Hf; [|done].
  destruct (readable f) eqn:Hr; [|done]. cbn [negb].
  destruct (contains CODE_EXAMPLES (content f)); [done|].
  destruct (contains SEE_ALSO (content f)); [|done]. cbn [negb].
  unfold lift. destruct (new_content (content f) config) as [text|e]; [|done].
  unfold write_text. rewrite Hf. destruct (writable f); [|done].
  cbn. by rewrite Hr.
Qed.

(** *** The loop of [main] *)


End ScriptFacts.

(** * The properties of the specification *)

Section Guards.
Import PyStr PyStrFacts.

(** C6. A document whose text contains the marker "## Code Examples" is
    skipped as already present: the call returns [False] after printing the
    "Skipping" line; the file store is the one it started from and nothing
    is written. *)
Theorem skipped_when_marker_present (file_path : str) (config : config)
    (w : world) (f : file) :
  files w !! file_path = Some f →
  readable f = true →
  contains CODE_EXAMPLES (content f) = true →
  add_sections_to_file file_path config w
  = (Ok false,
     World (files w) (stdout w ++ [msg_skipping file_path]) (written w)).
Proof.
  intros Hf Hr Hc. rewrite add_sections_to_file_cases, Hf, Hr, Hc. done.
Qed.

(** C7. A document whose text contains neither "## Code Examples" nor
    "## See Also" is skipped for want of an anchor: the call returns [False]
    after printing the "No 'See Also' section" line; the file store is the
    one it started from and nothing is written. *)
Theorem skipped_when_anchor_missing (file_path : str) (config : config)
    (w : world) (f : file) :
  files w !! file_path = Some f →
  readable f = true →
  contains CODE_EXAMPLES (content f) = false →
  contains SEE_ALSO (content f) = false →
  add_sections_to_file file_path config w
  = (Ok false,
     World (files w) (stdout w ++ [msg_no_see_also file_path]) (written w)).
Proof.
  intros Hf Hr Hc Ha. rewrite add_sections_to_file_cases, Hf, Hr, Hc, Ha. done.
Qed.

(** C1. Idempotence.  Run the injector on a document, then run it again on
    what the first run left.  The second run leaves every file as the first
    run left it and writes nothing.  When the first run updated the
    document, the second one returns [False] through the "already has
    examples section" branch; in every other case it ends as the first. *)
Theorem add_sections_twice (file_path : str) (config : config) (w : world) :
  let '(r1, w1) := add_sections_to_file file_path config w in
  let '(r2, w2) := add_sections_to_file file_path config w1 in
  files w2 = files w1 ∧ written w2 = written w1 ∧
  match r1 with
  | Ok true => r2 = Ok false ∧ stdout w2 = stdout w1 ++ [msg_skipping file_path]
  | _ => r2 = r1
  end.
Proof.
  rewrite (add_sections_to_file_cases file_path config w).
  destruct (files w !! file_path) as [f|] eqn:Hf.
  2: { rewrite add_sections_to_file_cases, Hf. done. }
  destruct (readable f) eqn:Hr; cbn [negb].
  2: { rewrite add_sections_to_file_cases, Hf, Hr. done. }
  destruct (contains CODE_EXAMPLES (content f)) eqn:Hc.
  { rewrite add_sections_to_file_cases. cbn [files]. rewrite Hf, Hr, Hc. done. }
  destruct (contains SEE_ALSO (content f)) eqn:Ha; cbn [negb].
  2: { rewrite add_sections_to_file_cases. cbn [files].
       rewrite Hf, Hr, Hc, Ha. done. }
  destruct (new_content (content f) config) as [text|e] eqn:Hnew.
  2: { rewrite add_sections_to_file_cases, Hf, Hr, Hc, Ha, Hnew. done. }
  destruct (writable f) eqn:Hw; cbn [negb].
  2: { rewrite add_sections_to_file_cases, Hf, Hr, Hc, Ha, Hnew, Hw. done. }
  rewrite add_sections_to_file_cases. cbn [files].
  rewrite lookup_insert_eq. cbn [readable negb content].
  rewrite (new_content_marker _ _ _ Ha Hnew). done.
Qed.

Lemma skipped_when_marker_present_witness :
  files (page (py "# Page\n## Code Examples\n\n## See Also\n")) !! py "page.md"
    = Some (File (py "# Page\n## Code Examples\n\n## See Also\n") true true) ∧
  contains CODE_EXAMPLES (py "# Page\n## Code Examples\n\n## See Also\n") = true ∧
  add_sections_to_file (py "page.md") sample_config
    (page (py "# Page\n## Code Examples\n\n## See Also\n"))
  = (Ok false,
     World (files (page (py "# Page\n## Code Examples\n\n## See Also\n")))
           [msg_skipping (py "page.md")] []).
Proof.
  split; [vm_compute; reflexivity|]. split; [reflexivity|].
  apply (skipped_when_marker_present (py "page.md") sample_config
           (page (py "# Page\n## Code Examples\n\n## See Also\n"))
           (File (py "# Page\n## Code Examples\n\n## See Also\n") true true));
    vm_compute; reflexivity.
Defined.

Lemma skipped_when_anchor_missing_witness :
  files (page (py "# Page\n\nNo anchor here.\n")) !! py "page.md"
    = Some (File (py "# Page\n\nNo anchor here.\n") true true) ∧
  contains CODE_EXAMPLES (py "# Page\n\nNo anchor here.\n") = false ∧
  contains SEE_ALSO (py "# Page\n\nNo anchor here.\n") = false ∧
  add_sections_to_file (py "page.md") sample_config
    (page (py "# Page\n\nNo anchor here.\n"))
  = (Ok false,
     World (files (page (py "# Page\n\nNo anchor here.\n")))
           [msg_no_see_also (py "page.md")] []).
Proof.
  split; [vm_compute; reflexivity|]. split; [reflexivity|].
  split; [reflexivity|].
  apply (skipped_when_anchor_missing (py "page.md") sample_config
           (page (py "# Page\n\nNo anchor here.\n"))
           (File (py "# Page\n\nNo anchor here.\n") true true));
    vm_compute; reflexivity.
Defined.

(** The first run of C1 can succeed: on the page of the specification's
    example it updates, and the second run then skips. *)
Example add_sections_twice_updated :
  let w := page (py "# Title\n\n## See Also\n- link\n") in
  let '(r1, w1) := add_sections_to_file (py "page.md") sample_config w in
  let '(r2, w2) := add_sections_to_file (py "page.md") sample_config w1 in
  r1 = Ok true ∧ r2 = Ok false ∧ files w2 = files w1 ∧ files w1 ≠ files w.
Proof.
  vm_compute. repeat split; try reflexivity. intros H. discriminate H.
Qed.

End Guards.

Section Splice.
Import PyStr PyStrFacts.

(** C2, as the specification states it, fails: on a page with two
    "## See Also" headings the injector does not leave the second one and
    the text after the first one as they were.  The text it writes is not
    the page with its first heading replaced by examples block + tests
    block + heading, and the page's text after the first heading is no
    longer the end of the file. *)
Lemma second_anchor_is_replaced_too :
  contains CODE_EXAMPLES two_anchors = false ∧
  ∃ tests_block text,
    tests_section sample_config = Ok tests_block ∧
    add_sections_to_file (py "page.md") sample_config (page two_anchors)
    = (Ok true,
       World {[ py "page.md" := File text true true ]}
             [msg_updated (py "page.md")] [(py "page.md", text)]) ∧
    text ≠ py "# T\n"
             ++ (examples_section sample_config ++ tests_block ++ SEE_ALSO)
             ++ py "\nA\n" ++ SEE_ALSO ++ py "\nB\n" ∧
    ¬ (py "\nA\n" ++ SEE_ALSO ++ py "\nB\n") `suffix_of` text.
Proof.
  split; [reflexivity|]. eexists _, _.
  split; [vm_compute; reflexivity|].
  split; [vm_compute; reflexivity|].
  split.
  - intros H. vm_compute in H. discriminate H.
  - apply (bool_decide_eq_false_1 _). vm_compute. reflexivity.
Qed.

(** C2, amended.  The new content of line 204 is the content read with
    every occurrence of "## See Also", taken from left to right without
    overlap, replaced by examples block + tests block + a line feed +
    "## See Also".  The text outside the occurrences - the pieces between
    and around them, which hold no further occurrence - is in the new
    content as it is in the content read. *)
Theorem every_anchor_is_replaced (content : str) (config : config) :
  ∃ tests_block,
    tests_section config = Ok tests_block ∧
    let pieces := split SEE_ALSO None content in
    content = join SEE_ALSO pieces ∧
    Forall (λ piece, contains SEE_ALSO piece = false) pieces ∧
    new_content content config
    = Ok (join (examples_section config ++ tests_block ++ py "\n" ++ SEE_ALSO)
               pieces).
Proof.
  destruct (tests_section_total config) as [tests_block Hts].
  exists tests_block. split; [done|]. cbv zeta.
  split; [by rewrite join_split|].
  split; [by apply split_pieces|].
  rewrite (new_content_replace _ _ _ Hts). by rewrite replace_join_split.
Qed.

Example two_anchors_pieces :
  split SEE_ALSO None two_anchors = [py "# T\n"; py "\nA\n"; py "\nB\n"].
Proof. reflexivity. Qed.

End Splice.

Section Batch.
Import PyStr PyStrFacts.

(** When no document raises, [main] prints the summary after the last
    status line. *)
Lemma main_on_ok (docs_config : list (str * config)) (w w' : world)
    (count : nat) :
  main_loop docs_config 0
    (World (files w) (stdout w ++ [msg_banner]) (written w)) = (Ok count, w') →
  main_on docs_config w
  = (Ok (), World (files w') (stdout w' ++ [msg_summary count]) (written w')).
Proof.
  intros Hloop. unfold main_on, mbind, M_bind, print at 1. by rewrite Hloop.
Qed.




End Batch.

Section Blocks.
Import PyStr PyStrFacts.

(** A line that opens a fence and has text after it up to the line end
    cannot sit where a line break is followed by text without backticks. *)
Lemma fence_opening_misplaced (r q a b : str) :
  (10 ∉ r) → (96 ∉ b) → r ++ [96; 96; 96] ++ q = b ++ [10] ++ a → False.
Proof.
  revert r. induction b as [|x b IH]; intros r Hr Hb Heq.
  - destruct r as [|c r]; [discriminate Heq|].
    injection Heq as -> _. apply Hr. left.
  - destruct r as [|c r].
    + injection Heq as <- _. apply Hb. left.
    + injection Heq as -> Heq. apply (IH r); [| |done].
      * intros Hin. apply Hr. by right.
      * intros Hin. apply Hb. by right.
Qed.

Lemma fence_opening_not_before (pre info a b : str) :
  (10 ∉ info) → (96 ∉ b) → pre ++ py "```" ++ info = a ++ [10] ++ b → False.
Proof.
  intros Hinfo Hb Heq. apply (f_equal (λ l, rev l)) in Heq.
  rewrite !rev_app_distr, <- !app_assoc in Heq.
  apply (fence_opening_misplaced (rev info) (rev pre) (rev a) (rev b));
    [| |exact Heq].
  - intros Hin. apply Hinfo. by apply list_elem_of_In, in_rev, list_elem_of_In.
  - intros Hin. apply Hb. by apply list_elem_of_In, in_rev, list_elem_of_In.
Qed.

Lemma tests_section_not_single_line (config : config) (tests_block : str) :
  tests_section config = Ok tests_block →
  ¬ ∃ pre info,
      (10 ∉ info) ∧
      tests_block
      = pre ++ py "```" ++ info ++ py "\n"
          ++ (py "task test:unit -- --filter=" ++ test_filter config)
          ++ py "\n```\n".
Proof.
  intros Hts (pre & info & Hnl & Heq).
  destruct (tests_section_bullets config) as (bullets & _ & Hts').
  assert (tests_block
          = (py "\n## Related Tests\n\nThe functionality is thoroughly tested. Key test files:\n\n"
               ++ concat bullets ++ py "\nRun the tests:\n\n```bash")
            ++ [10] ++ py "# Run tests"
            ++ py "\n" ++ (py "task test:unit -- --filter=" ++ test_filter config)
            ++ py "\n```\n") as Hblock.
  { rewrite Hts in Hts'. injection Hts' as ->. rewrite <- !app_assoc. done. }
  rewrite Hblock in Heq. clear Hts Hts' Hblock.
  rewrite !(app_assoc _ _ (py "\n" ++ _)) in Heq.
  apply app_inv_tail in Heq. rewrite <- !app_assoc in Heq.
  apply (fence_opening_not_before pre info
           (py "\n## Related Tests\n\nThe functionality is thoroughly tested. Key test files:\n\n"
              ++ concat bullets ++ py "\nRun the tests:\n\n```bash")
           (py "# Run tests") Hnl).
  - vm_compute. intros Hin.
    repeat (apply elem_of_cons in Hin as [Hin|Hin]; [done|]).
    by apply elem_of_nil in Hin.
  - rewrite <- Heq, <- !app_assoc. done.
Qed.

(** C4, as the specification states it, fails: the fenced block that ends
    the tests block is not a single command line.  For the sample
    configuration, the tests block is not some text followed by an opening
    fence line, the one line [task test:unit -- --filter=Foo], and the
    closing fence. *)
Lemma fence_is_not_a_single_line :
  ∃ tests_block,
    tests_section sample_config = Ok tests_block ∧
    ¬ ∃ pre info,
        (10 ∉ info) ∧
        tests_block
        = pre ++ py "```" ++ info ++ py "\n"
            ++ py "task test:unit -- --filter=Foo" ++ py "\n```\n".
Proof.
  destruct (tests_section_total sample_config) as [tests_block Hts].
  exists tests_block. split; [done|].
  apply (tests_section_not_single_line sample_config tests_block Hts).
Qed.

(** C4, amended.  For every config the tests block ends with a fence opened
    by [```bash] that holds two lines and nothing else: the comment line
    [# Run tests], then the line [task test:unit -- --filter=] followed by
    the config's [test_filter] as it is; the closing fence line ends the
    block. *)
Theorem tests_section_fence (config : config) :
  ∃ body,
    tests_section config
    = Ok (body ++ py "```bash\n"
            ++ py "# Run tests\n"
            ++ py "task test:unit -- --filter=" ++ test_filter config ++ py "\n"
            ++ py "```\n").
Proof.
  destruct (tests_section_bullets config) as (bullets & _ & ->).
  exists (py "\n## Related Tests\n\nThe functionality is thoroughly tested. Key test files:\n\n"
            ++ concat bullets ++ py "\nRun the tests:\n\n").
  f_equal. rewrite <- !app_assoc. done.
Qed.

(** C8. With an empty examples sequence the examples block is the header
    line, the introductory sentence and the closing sentence, with no
    bullet; with an empty tests sequence the tests block is the header
    line, the introductory sentence and the command trailer, with no
    bullet. *)
Theorem empty_sequences_give_no_bullets (config : config) :
  (examples config = [] →
   examples_section config
   = py "\n## Code Examples\n\n"
       ++ py "The following working examples demonstrate this feature:\n\n"
       ++ py "\nAll examples are fully tested and can be run directly.\n") ∧
  (tests config = [] →
   tests_section config
   = Ok (py "\n## Related Tests\n\n"
           ++ py "The functionality is thoroughly tested. Key test files:\n\n"
           ++ py "\nRun the tests:\n\n```bash\n# Run tests\ntask test:unit -- --filter="
           ++ test_filter config ++ py "\n```\n")).
Proof.
  split; intros Hempty.
  - rewrite examples_section_bullets, Hempty. done.
  - unfold tests_section. rewrite Hempty. done.
Qed.

Lemma empty_sequences_give_no_bullets_witness :
  examples empty_config = [] ∧ tests empty_config = [] ∧
  examples_section empty_config
  = py "\n## Code Examples\n\n"
      ++ py "The following working examples demonstrate this feature:\n\n"
      ++ py "\nAll examples are fully tested and can be run directly.\n" ∧
  tests_section empty_config
  = Ok (py "\n## Related Tests\n\n"
          ++ py "The functionality is thoroughly tested. Key test files:\n\n"
          ++ py "\nRun the tests:\n\n```bash\n# Run tests\ntask test:unit -- --filter="
          ++ test_filter empty_config ++ py "\n```\n").
Proof.
  split; [reflexivity|]. split; [reflexivity|]. split.
  - apply (proj1 (empty_sequences_give_no_bullets empty_config)). reflexivity.
  - apply (proj2 (empty_sequences_give_no_bullets empty_config)). reflexivity.
Defined.

(** C9. The examples block is its header, then the bullet of each entry of
    the examples sequence in the order of the sequence, then the closing
    sentence; the tests block is its header, then the bullet of each entry
    of the tests sequence in the order of the sequence, then the trailer. *)
Theorem bullets_follow_the_sequences (config : config) :
  examples_section config
  = py "\n## Code Examples\n\nThe following working examples demonstrate this feature:\n\n"
      ++ concat (map example_bullet (examples config))
      ++ py "\nAll examples are fully tested and can be run directly.\n" ∧
  ∃ bullets,
    Forall2 (λ test bullet, test_bullet test = Ok bullet) (tests config) bullets ∧
    tests_section config
    = Ok (py "\n## Related Tests\n\nThe functionality is thoroughly tested. Key test files:\n\n"
            ++ concat bullets
            ++ py "\nRun the tests:\n\n```bash\n# Run tests\ntask test:unit -- --filter="
            ++ test_filter config ++ py "\n```\n").
Proof.
  split; [apply examples_section_bullets | apply tests_section_bullets].
Qed.

(** C5. An entry of the tests sequence that has " - " in it is a path and a
    description, the stripped texts before and after the leftmost " - ";
    an entry that has none is a path alone, the stripped entry.  The label
    of the bullet's link is the final segment of the path - what follows
    its last "/" - and the string alone decides it.  With a description the
    bullet ends with " - " and the description; without, it ends after the
    link. *)
Theorem test_bullet_label (test : str) :
  if contains (py " - ") test then
    ∃ path desc,
      first_occurrence (py " - ") test path desc ∧
      test_bullet test
      = Ok (py "- [" ++ lastPathSegment (strip path) ++ py "]("
              ++ BLOB_URL ++ strip path ++ py ")"
              ++ py " - " ++ strip desc ++ py "\n")
  else
    test_bullet test
    = Ok (py "- [" ++ lastPathSegment (strip test) ++ py "]("
            ++ BLOB_URL ++ strip test ++ py ")" ++ py "\n").
Proof.
  destruct (contains (py " - ") test) eqn:Hc.
  - destruct (test_bullet_described test Hc) as (path & desc & Hfirst & ->).
    exists path, desc. split; [done|]. reflexivity.
  - rewrite (test_bullet_bare test Hc). reflexivity.
Qed.

(** C10. When the path of an entry ends with "/", the label of its bullet
    is empty: a described entry gives [- [](<url>) - <description>], and an
    entry without description gives [- [](<url>)]. *)
Theorem trailing_slash_gives_empty_label (test dir : str) :
  (∀ path desc,
     first_occurrence (py " - ") test path desc →
     strip path = dir ++ py "/" →
     test_bullet test
     = Ok (py "- [](" ++ BLOB_URL ++ strip path ++ py ")"
             ++ py " - " ++ strip desc ++ py "\n")) ∧
  (contains (py " - ") test = false →
   strip test = dir ++ py "/" →
   test_bullet test
   = Ok (py "- [](" ++ BLOB_URL ++ strip test ++ py ")" ++ py "\n")).
Proof.
  split.
  - intros path desc Hfirst Hslash.
    assert (contains (py " - ") test = true) as Hc.
    { apply contains_spec. destruct Hfirst as [-> _]. eauto. }
    destruct (test_bullet_described test Hc) as (path' & desc' & Hfirst' & ->).
    destruct (first_occurrence_unique _ _ _ _ _ _ Hfirst Hfirst') as [<- <-].
    rewrite Hslash, lastPathSegment_trailing_slash. reflexivity.
  - intros Hc Hslash. rewrite (test_bullet_bare test Hc).
    rewrite Hslash, lastPathSegment_trailing_slash. reflexivity.
Qed.

Lemma trailing_slash_gives_empty_label_witness :
  first_occurrence (py " - ")
    (py "tests-e2e/Symfony/ - End-to-end Symfony tests")
    (py "tests-e2e/Symfony/") (py "End-to-end Symfony tests") ∧
  strip (py "tests-e2e/Symfony/") = py "tests-e2e/Symfony" ++ py "/" ∧
  test_bullet (py "tests-e2e/Symfony/ - End-to-end Symfony tests")
  = Ok (py "- [](https://github.com/event4u-app/data-helpers/blob/main/tests-e2e/Symfony/) - End-to-end Symfony tests\n") ∧
  contains (py " - ") (py " tests-e2e/ ") = false ∧
  strip (py " tests-e2e/ ") = py "tests-e2e" ++ py "/" ∧
  test_bullet (py " tests-e2e/ ")
  = Ok (py "- [](https://github.com/event4u-app/data-helpers/blob/main/tests-e2e/)\n").
Proof.
  split; [split; reflexivity|]. split; [reflexivity|]. split.
  - apply (proj1 (trailing_slash_gives_empty_label
                    (py "tests-e2e/Symfony/ - End-to-end Symfony tests")
                    (py "tests-e2e/Symfony"))
             (py "tests-e2e/Symfony/") (py "End-to-end Symfony tests"));
      [split; reflexivity | reflexivity].
  - split; [reflexivity|]. split; [reflexivity|].
    apply (proj2 (trailing_slash_gives_empty_label
                    (py " tests-e2e/ ") (py "tests-e2e")));
      reflexivity.
Defined.

End Blocks.

(** * Worked examples *)

Section Examples.
Import PyStr.

Example py_newline : py "a\nb" = [97; 10; 98].
Proof. reflexivity. Qed.

Example split_path :
  split (py "/") None (py "tests-e2e/Symfony/")
  = [py "tests-e2e"; py "Symfony"; py ""].
Proof. reflexivity. Qed.

Example split_at_most_once :
  split (py " - ") (Some 1%nat) (py "a - b - c") = [py "a"; py "b - c"].
Proof. reflexivity. Qed.

Example replace_all : replace (py "ab") (py "X") (py "abcabab") = py "XcXX".
Proof. reflexivity. Qed.

Example strip_both_ends : strip (py "  a b \n") = py "a b".
Proof. reflexivity. Qed.

Example last_segment_of_test : lastPathSegment (py "tests/T.php") = py "T.php".
Proof. reflexivity. Qed.

(** The example scenario of the specification. *)
Example scenario :
  new_content (py "# Title\n\n## See Also\n- link\n") sample_config
  = Ok (py "# Title\n\n"
          ++ py "\n## Code Examples\n\n"
          ++ py "The following working examples demonstrate this feature:\n\n"
          ++ py "- [**Basic**](https://github.com/event4u-app/data-helpers/blob/main/ex/basic.php) - desc\n"
          ++ py "\nAll examples are fully tested and can be run directly.\n"
          ++ py "\n## Related Tests\n\n"
          ++ py "The functionality is thoroughly tested. Key test files:\n\n"
          ++ py "- [T.php](https://github.com/event4u-app/data-helpers/blob/main/tests/T.php) - unit test\n"
          ++ py "\nRun the tests:\n\n"
          ++ py "```bash\n# Run tests\ntask test:unit -- --filter=Foo\n```\n"
          ++ py "\n## See Also\n- link\n").
Proof. reflexivity. Qed.

(** Every entry of the table renders: [main] never stops on a
    [ValueError] or an [IndexError]. *)
Example all_configured_tests_render :
  Forall (λ item, ∃ tests_block, tests_section item.2 = Ok tests_block)
         DOCS_CONFIG.
Proof. apply Forall_forall. intros [? c] _. apply tests_section_total. Qed.

Example summary_for_twelve :
  msg_summary 12
  = py "\n" ++ [0x201a; 0xfa; 0xd6]
      ++ py "  Updated 12 documentation pages successfully!".
Proof. reflexivity. Qed.

End Examples.

(** * Further properties of the script *)

(** ** One call *)

Section OneCall.
Import PyStr PyStrFacts.

Lemma replace_absent (old new s : str) :
  contains old s = false → replace old new s = s.
Proof.
  induction s as [|c s IH]; [done|]. cbn [contains].
  intros [Hst Hc]%orb_false_iff.
  rewrite replace_no_match by done. by rewrite IH.
Qed.

Lemma replace_at_first (old new s pre post : str) :
  old ≠ [] → first_occurrence old s pre post →
  replace old new s = pre ++ new ++ replace old new post.
Proof.
  intros Hne [-> Hfind]. induction pre as [|c pre IH].
  - cbn [app]. by apply replace_match.
  - cbn [app] in *. rewrite find_cons in Hfind.
    destruct (startswith old (c :: pre ++ old ++ post)) eqn:Hst; [done|].
    rewrite replace_no_match by done. f_equal. apply IH.
    destruct (find old (pre ++ old ++ post)); [|done].
    cbn in Hfind. by simplify_eq.
Qed.

Lemma new_content_anchor (content : str) (config : config) (text : str) :
  contains SEE_ALSO content = true →
  new_content content config = Ok text →
  contains SEE_ALSO text = true.
Proof.
  intros Hanchor Hnew.
  destruct (tests_section_total config) as [tests_block Hts].
  rewrite (new_content_replace _ _ _ Hts) in Hnew. injection Hnew as <-.
  apply replace_contains_new; [done | done |].
  apply contains_app_l, contains_app_l. done.
Qed.

Lemma add_sections_to_file_other (file_path other : str) (config : config)
    (w : world) :
  other ≠ file_path →
  files (add_sections_to_file file_path config w).2 !! other = files w !! other.
Proof.
  intros Hne. rewrite add_sections_to_file_cases.
  repeat case_match; try done. cbn. by rewrite lookup_insert_ne.
Qed.

Lemma add_sections_to_file_own (file_path : str) (config : config) (w : world) :
  match files w !! file_path with
  | None => files (add_sections_to_file file_path config w).2 !! file_path = None
  | Some f =>
      ∃ f', files (add_sections_to_file file_path config w).2 !! file_path
            = Some f' ∧
            readable f' = readable f ∧ writable f' = writable f
  end.
Proof.
  rewrite add_sections_to_file_cases.
  destruct (files w !! file_path) as [f|] eqn:Hf; [|done].
  destruct (readable f) eqn:Hr; cbn [negb]; [|by eauto].
  destruct (contains CODE_EXAMPLES (content f)); [by eauto|].
  destruct (negb (contains SEE_ALSO (content f))); [by eauto|].
  destruct (new_content (content f) config); [|by eauto].
  destruct (writable f) eqn:Hw; cbn [negb]; [|by eauto].
  cbn. rewrite lookup_insert_eq. by eauto.
Qed.

(** X1. A call never creates or removes a file and never changes what may
    be done with one: every path that had no file has none afterwards,
    every file is still there with the same permissions, and every file
    but the one at [file_path] is as it was. *)
Theorem add_sections_keeps_the_store (file_path : str) (config : config)
    (w : world) (p : str) :
  match files w !! p with
  | None => files (add_sections_to_file file_path config w).2 !! p = None
  | Some f =>
      ∃ f', files (add_sections_to_file file_path config w).2 !! p = Some f' ∧
            readable f' = readable f ∧ writable f' = writable f ∧
            (p ≠ file_path → f' = f)
  end.
Proof.
  destruct (decide (p = file_path)) as [->|Hne].
  - pose proof (add_sections_to_file_own file_path config w) as Hown.
    destruct (files w !! file_path); [|done].
    destruct Hown as (f' & ? & ? & ?). by exists f'.
  - rewrite (add_sections_to_file_other _ _ _ _ Hne).
    destruct (files w !! p) as [f|]; [|done]. by exists f.
Qed.

(** X3. What the returned flag means.  After [True] the file holds a new
    text, which has the marker and still has the anchor; that text was
    written once and the "Updated" line printed.  After [False] no file
    has changed and nothing was written. *)
Theorem add_sections_flag (file_path : str) (config : config)
    (w w' : world) (updated : bool) :
  add_sections_to_file file_path config w = (Ok updated, w') →
  if updated then
    ∃ text,
      files w' = <[file_path := File text true true]> (files w) ∧
      contains CODE_EXAMPLES text = true ∧
      contains SEE_ALSO text = true ∧
      written w' = written w ++ [(file_path, text)] ∧
      stdout w' = stdout w ++ [msg_updated file_path]
  else
    files w' = files w ∧ written w' = written w.
Proof.
  rewrite add_sections_to_file_cases.
  destruct (files w !! file_path) as [f|] eqn:Hf; [|done].
  destruct (readable f); cbn [negb]; [|done].
  destruct (contains CODE_EXAMPLES (content f)); [by intros [= <- <-]|].
  destruct (contains SEE_ALSO (content f)) eqn:Ha; cbn [negb];
    [|by intros [= <- <-]].
  destruct (new_content (content f) config) as [text|] eqn:Hnew; [|done].
  destruct (writable f); cbn [negb]; [|done].
  intros [= <- <-]. exists text. cbn.
  split; [done|]. split; [by eapply new_content_marker|].
  split; [by eapply new_content_anchor|]. done.
Qed.

Lemma add_sections_flag_witness :
  add_sections_to_file (py "page.md") sample_config
    (page (py "# Title\n\n## See Also\n- link\n"))
  = (Ok true,
     (add_sections_to_file (py "page.md") sample_config
        (page (py "# Title\n\n## See Also\n- link\n"))).2) ∧
  ∃ text,
    files (add_sections_to_file (py "page.md") sample_config
             (page (py "# Title\n\n## See Also\n- link\n"))).2
    = <[py "page.md" := File text true true]>
        (files (page (py "# Title\n\n## See Also\n- link\n"))) ∧
    contains CODE_EXAMPLES text = true ∧
    contains SEE_ALSO text = true ∧
    written (add_sections_to_file (py "page.md") sample_config
               (page (py "# Title\n\n## See Also\n- link\n"))).2
    = [] ++ [(py "page.md", text)] ∧
    stdout (add_sections_to_file (py "page.md") sample_config
              (page (py "# Title\n\n## See Also\n- link\n"))).2
    = [] ++ [msg_updated (py "page.md")].
Proof.
  split; [vm_compute; reflexivity|].
  apply (add_sections_flag (py "page.md") sample_config
           (page (py "# Title\n\n## See Also\n- link\n")) _ true).
  vm_compute. reflexivity.
Defined.

(** X4. The usual page, with one "## See Also" heading: the new text is the
    text before the heading, the examples block, the tests block, a line
    feed, the heading, and the text after the heading, each as it was. *)
Theorem single_anchor_splice (content pre post : str) (config : config) :
  first_occurrence SEE_ALSO content pre post →
  contains SEE_ALSO post = false →
  ∃ tests_block,
    tests_section config = Ok tests_block ∧
    new_content content config
    = Ok (pre ++ examples_section config ++ tests_block
            ++ py "\n" ++ SEE_ALSO ++ post).
Proof.
  intros Hfirst Hpost.
  destruct (tests_section_total config) as [tests_block Hts].
  exists tests_block. split; [done|].
  rewrite (new_content_replace _ _ _ Hts).
  rewrite (replace_at_first _ _ _ pre post) by done.
  rewrite replace_absent by done. by rewrite <- !app_assoc.
Qed.

Lemma single_anchor_splice_witness :
  first_occurrence SEE_ALSO (py "# Title\n\n## See Also\n- link\n")
    (py "# Title\n\n") (py "\n- link\n") ∧
  contains SEE_ALSO (py "\n- link\n") = false ∧
  ∃ tests_block,
    tests_section sample_config = Ok tests_block ∧
    new_content (py "# Title\n\n## See Also\n- link\n") sample_config
    = Ok (py "# Title\n\n" ++ examples_section sample_config ++ tests_block
            ++ py "\n" ++ SEE_ALSO ++ py "\n- link\n").
Proof.
  split; [split; reflexivity|]. split; [reflexivity|].
  apply (single_anchor_splice (py "# Title\n\n## See Also\n- link\n")
           (py "# Title\n\n") (py "\n- link\n") sample_config);
    [split; reflexivity | reflexivity].
Defined.

(** X5. The label of a test bullet, [test_path.split("/")[-1]], always
    exists, never holds a "/", and is the end of the path: the path is the
    label itself, or a directory part, a "/" and the label. *)
Theorem label_is_final_segment (test_path : str) :
  ∃ test_filename,
    getitem_last (split (py "/") None test_path) = Ok test_filename ∧
    (47 ∉ test_filename) ∧
    (test_path = test_filename ∨
     ∃ dir, test_path = dir ++ py "/" ++ test_filename).
Proof.
  exists (lastPathSegment test_path).
  split; [apply getitem_last_split_slash | apply lastPathSegment_spec].
Qed.

End OneCall.

(** ** The batch *)

Section WholeBatch.
Import PyStr PyStrFacts.

Lemma keeps_access_refl (fs : gmap (list N) file) : keeps_access fs fs.
Proof. intros p. destruct (fs !! p) as [f|]; [by exists f | done]. Qed.

Lemma keeps_access_trans (fs1 fs2 fs3 : gmap (list N) file) :
  keeps_access fs1 fs2 → keeps_access fs2 fs3 → keeps_access fs1 fs3.
Proof.
  intros H12 H23 p. specialize (H12 p). specialize (H23 p).
  destruct (fs1 !! p) as [f1|].
  - destruct H12 as (f2 & Hf2 & ? & ?). rewrite Hf2 in H23.
    destruct H23 as (f3 & ? & ? & ?). exists f3. split; [done|]. split; congruence.
  - by rewrite H12 in H23.
Qed.

Lemma add_sections_to_file_access (file_path : str) (config : config)
    (w : world) :
  keeps_access (files w) (files (add_sections_to_file file_path config w).2).
Proof.
  intros p. destruct (decide (p = file_path)) as [->|Hne].
  - apply add_sections_to_file_own.
  - rewrite (add_sections_to_file_other _ _ _ _ Hne).
    destruct (files w !! p) as [f|]; [by exists f | done].
Qed.

Lemma main_loop_cons (rest : list (str * config)) (file_path : str)
    (config : config) (count : nat) (w : world) :
  main_loop ((file_path, config) :: rest) count w =
  match add_sections_to_file file_path config w with
  | (Ok updated, w') =>
      main_loop rest (if updated then (count + 1)%nat else count) w'
  | (Raise e, w') => (Raise e, w')
  end.
Proof. done. Qed.

Lemma main_on_cases (docs_config : list (str * config)) (w : world) :
  main_on docs_config w =
  match main_loop docs_config 0
          (World (files w) (stdout w ++ [msg_banner]) (written w)) with
  | (Ok count, w') =>
      (Ok (), World (files w') (stdout w' ++ [msg_summary count]) (written w'))
  | (Raise e, w') => (Raise e, w')
  end.
Proof. done. Qed.

Lemma main_loop_access (docs_config : list (str * config)) (count : nat)
    (w : world) :
  keeps_access (files w) (files (main_loop docs_config count w).2).
Proof.
  revert count w. induction docs_config as [|[file_path config] rest IH];
    intros count w.
  - apply keeps_access_refl.
  - rewrite main_loop_cons.
    pose proof (add_sections_to_file_access file_path config w) as Hstep.
    destruct (add_sections_to_file file_path config w) as [[updated|e] w1];
      [|done].
    eapply keeps_access_trans; [exact Hstep | apply IH].
Qed.

Lemma main_loop_other (docs_config : list (str * config)) (count : nat)
    (w : world) (p : str) :
  p ∉ docs_config.*1 →
  files (main_loop docs_config count w).2 !! p = files w !! p.
Proof.
  revert count w. induction docs_config as [|[file_path config] rest IH];
    intros count w Hp.
  - done.
  - cbn in Hp. apply not_elem_of_cons in Hp as [Hne Hp].
    rewrite main_loop_cons.
    pose proof (add_sections_to_file_other file_path p config w Hne) as Hstep.
    destruct (add_sections_to_file file_path config w) as [[updated|e] w1];
      [|done].
    by rewrite IH.
Qed.

Lemma main_on_files (docs_config : list (str * config)) (w : world) :
  files (main_on docs_config w).2
  = files (main_loop docs_config 0
             (World (files w) (stdout w ++ [msg_banner]) (written w))).2.
Proof. rewrite main_on_cases. by repeat case_match. Qed.

(** X6. [main] never creates or removes a file and never changes what may
    be done with one, whether it ends normally or raises; a file whose path
    is not a key of the table is left as it was. *)
Theorem main_keeps_the_store (docs_config : list (str * config)) (w : world)
    (p : str) :
  match files w !! p with
  | None => files (main_on docs_config w).2 !! p = None
  | Some f =>
      ∃ f', files (main_on docs_config w).2 !! p = Some f' ∧
            readable f' = readable f ∧ writable f' = writable f ∧
            (p ∉ docs_config.*1 → f' = f)
  end.
Proof.
  rewrite main_on_files.
  pose proof (main_loop_access docs_config 0
    (World (files w) (stdout w ++ [msg_banner]) (written w)) p) as Hacc.
  pose proof (main_loop_other docs_config 0
    (World (files w) (stdout w ++ [msg_banner]) (written w)) p) as Hother.
  cbn [files] in Hacc, Hother.
  destruct (files w !! p) as [f|]; [|done].
  destruct Hacc as (f' & Hf' & ? & ?). exists f'.
  split; [done|]. split; [done|]. split; [done|].
  intros Hp. specialize (Hother Hp). congruence.
Qed.

Lemma add_sections_to_file_report (file_path : str) (config : config)
    (w w' : world) (updated : bool) :
  add_sections_to_file file_path config w = (Ok updated, w') →
  ∃ line ws,
    status_line file_path line ∧
    stdout w' = stdout w ++ [line] ∧
    written w' = written w ++ ws ∧
    length ws = (if updated then 1 else 0)%nat.
Proof.
  rewrite add_sections_to_file_cases. unfold status_line.
  repeat case_match; intros ?; simplify_eq; cbn.
  - exists (msg_skipping file_path), []. rewrite app_nil_r. auto.
  - exists (msg_no_see_also file_path), []. rewrite app_nil_r. auto.
  - eexists (msg_updated file_path), [_]. auto 10.
Qed.

Lemma main_loop_report (docs_config : list (str * config)) (count count' : nat)
    (w w' : world) :
  main_loop docs_config count w = (Ok count', w') →
  ∃ lines ws,
    stdout w' = stdout w ++ lines ∧
    Forall2 (λ item line, status_line item.1 line) docs_config lines ∧
    written w' = written w ++ ws ∧
    count' = (count + length ws)%nat ∧
    (length ws ≤ length docs_config)%nat.
Proof.
  revert count w. induction docs_config as [|[file_path config] rest IH];
    intros count w.
  - intros [= <- <-]. exists [], []. rewrite !app_nil_r. cbn.
    split; [done|]. split; [constructor|]. split; [done|]. split; lia.
  - rewrite main_loop_cons.
    destruct (add_sections_to_file file_path config w) as [[updated|e] w1]
      eqn:Hstep; [|done].
    intros Hrest.
    destruct (add_sections_to_file_report _ _ _ _ _ Hstep)
      as (line & ws1 & Hline & Hout1 & Hw1 & Hlen1).
    destruct (IH _ _ Hrest) as (lines & ws & Hout & Hall & Hw & Hcount & Hlen).
    exists (line :: lines), (ws1 ++ ws).
    rewrite Hout, Hout1, Hw, Hw1, <- !app_assoc, length_app. cbn [length].
    split; [done|]. split; [by constructor|]. split; [done|].
    destruct updated; split; lia.
Qed.

(** X7. A run of [main] that ends normally has printed the banner, then one
    status line for each entry of the table, in the order of the table and
    naming that entry's path, then the summary; the number in the summary
    is the number of files written in the run, at most one per entry. *)
Theorem main_report (docs_config : list (str * config)) (w w' : world) :
  main_on docs_config w = (Ok (), w') →
  ∃ lines ws,
    stdout w' = stdout w ++ [msg_banner] ++ lines ++ [msg_summary (length ws)] ∧
    Forall2 (λ item line, status_line item.1 line) docs_config lines ∧
    written w' = written w ++ ws ∧
    (length ws ≤ length docs_config)%nat.
Proof.
  rewrite main_on_cases.
  destruct (main_loop docs_config 0 _) as [[count|e] w1] eqn:Hloop; [|done].
  intros [= <-]. cbn [stdout written].
  destruct (main_loop_report _ _ _ _ _ Hloop)
    as (lines & ws & Hout & Hall & Hw & -> & Hlen).
  exists lines, ws. rewrite Hout, Hw. cbn [stdout written Nat.add].
  rewrite <- !app_assoc. done.
Qed.

Lemma main_report_witness :
  main_on DOCS_CONFIG all_pages = (Ok (), (main_on DOCS_CONFIG all_pages).2) ∧
  ∃ lines ws,
    stdout (main_on DOCS_CONFIG all_pages).2
    = stdout all_pages ++ [msg_banner] ++ lines ++ [msg_summary (length ws)] ∧
    Forall2 (λ item line, status_line item.1 line) DOCS_CONFIG lines ∧
    written (main_on DOCS_CONFIG all_pages).2 = written all_pages ++ ws ∧
    (length ws ≤ length DOCS_CONFIG)%nat.
Proof.
  split; [vm_compute; reflexivity|].
  apply (main_report DOCS_CONFIG all_pages). vm_compute. reflexivity.
Defined.

End WholeBatch.

(** ** Running again *)

Section Reruns.
Import PyStr PyStrFacts.

Lemma settled_skips (file_path : str) (config : config) (w : world) :
  settled (files w) file_path →
  ∃ line,
    add_sections_to_file file_path config w
    = (Ok false, World (files w) (stdout w ++ [line]) (written w)).
Proof.
  intros (f & Hf & Hr & Hguard). rewrite add_sections_to_file_cases, Hf, Hr.
  cbn [negb]. destruct (contains CODE_EXAMPLES (content f)) eqn:Hc; [by eauto|].
  destruct Hguard as [|Ha]; [done|]. rewrite Ha. by eauto.
Qed.

Lemma settled_after_ok (file_path : str) (config : config) (w w' : world)
    (updated : bool) :
  add_sections_to_file file_path config w = (Ok updated, w') →
  settled (files w') file_path.
Proof.
  rewrite add_sections_to_file_cases. unfold settled.
  destruct (files w !! file_path) as [f|] eqn:Hf; [|done].
  destruct (readable f) eqn:Hr; cbn [negb]; [|done].
  destruct (contains CODE_EXAMPLES (content f)) eqn:Hc.
  { intros [= <- <-]. exists f. auto. }
  destruct (contains SEE_ALSO (content f)) eqn:Ha; cbn [negb].
  2: { intros [= <- <-]. exists f. auto. }
  destruct (new_content (content f) config) as [text|] eqn:Hnew; [|done].
  destruct (writable f); cbn [negb]; [|done].
  intros [= <- <-]. exists (File text true true). cbn.
  rewrite lookup_insert_eq. split; [done|]. split; [done|]. left.
  by eapply new_content_marker.
Qed.

Lemma settled_kept (file_path other : str) (config : config) (w : world) :
  settled (files w) other →
  settled (files (add_sections_to_file file_path config w).2) other.
Proof.
  intros Hs. destruct (decide (other = file_path)) as [->|Hne].
  - destruct (settled_skips file_path config w Hs) as [line ->]. done.
  - unfold settled. by rewrite add_sections_to_file_other.
Qed.

Lemma main_loop_keeps_settled (docs_config : list (str * config)) (count : nat)
    (w : world) (p : str) :
  settled (files w) p → settled (files (main_loop docs_config count w).2) p.
Proof.
  revert count w. induction docs_config as [|[file_path config] rest IH];
    intros count w Hs; [done|].
  rewrite main_loop_cons.
  pose proof (settled_kept file_path p config w Hs) as Hstep.
  destruct (add_sections_to_file file_path config w) as [[updated|e] w1];
    [|done].
  by apply IH.
Qed.

Lemma main_loop_settles (docs_config : list (str * config)) (count count' : nat)
    (w w' : world) :
  main_loop docs_config count w = (Ok count', w') →
  Forall (λ item, settled (files w') item.1) docs_config.
Proof.
  revert count w. induction docs_config as [|[file_path config] rest IH];
    intros count w; [constructor|].
  rewrite main_loop_cons.
  destruct (add_sections_to_file file_path config w) as [[updated|e] w1]
    eqn:Hstep; [|done].
  intros Hrest. constructor; [|by eapply IH].
  apply settled_after_ok in Hstep.
  pose proof (main_loop_keeps_settled rest
    (if updated then (count + 1)%nat else count) w1 file_path Hstep) as Hk.
  by rewrite Hrest in Hk.
Qed.

Lemma main_loop_all_settled (docs_config : list (str * config)) (count : nat)
    (w : world) :
  Forall (λ item, settled (files w) item.1) docs_config →
  ∃ w', main_loop docs_config count w = (Ok count, w') ∧
        files w' = files w ∧ written w' = written w.
Proof.
  revert w. induction docs_config as [|[file_path config] rest IH];
    intros w Hall.
  - by exists w.
  - apply Forall_cons in Hall as [Hs Hall]. rewrite main_loop_cons.
    destruct (settled_skips file_path config w Hs) as [line ->].
    apply (IH (World (files w) (stdout w ++ [line]) (written w))), Hall.
Qed.

(** X8. Running the whole batch again is a no-op: after a run of [main]
    that ended normally, a second run ends normally too, changes no file,
    writes nothing, and reports 0 updated pages. *)
Theorem main_twice (docs_config : list (str * config)) (w w1 : world) :
  main_on docs_config w = (Ok (), w1) →
  ∃ w2,
    main_on docs_config w1 = (Ok (), w2) ∧
    files w2 = files w1 ∧ written w2 = written w1 ∧
    last (stdout w2) = Some (msg_summary 0).
Proof.
  rewrite main_on_cases.
  destruct (main_loop docs_config 0 _) as [[count|e] w'] eqn:Hloop; [|done].
  intros [= <-]. apply main_loop_settles in Hloop.
  destruct (main_loop_all_settled docs_config 0
    (World (files w') ((stdout w' ++ [msg_summary count]) ++ [msg_banner])
           (written w')) Hloop) as (w2 & Hloop2 & Hfiles & Hwritten).
  rewrite main_on_cases. cbn [files stdout written]. rewrite Hloop2.
  eexists. split; [done|]. cbn [files stdout written].
  split; [done|]. split; [done|]. apply last_snoc.
Qed.

Lemma main_twice_witness :
  main_on DOCS_CONFIG all_pages = (Ok (), (main_on DOCS_CONFIG all_pages).2) ∧
  ∃ w2,
    main_on DOCS_CONFIG (main_on DOCS_CONFIG all_pages).2 = (Ok (), w2) ∧
    files w2 = files (main_on DOCS_CONFIG all_pages).2 ∧
    written w2 = written (main_on DOCS_CONFIG all_pages).2 ∧
    last (stdout w2) = Some (msg_summary 0).
Proof.
  split; [vm_compute; reflexivity|].
  apply (main_twice DOCS_CONFIG all_pages). vm_compute. reflexivity.
Defined.

End Reruns.
